(** * DBHelper: the data-access layer of the phishing simulation

    A shallow embedding of [DBHelper.py] and the properties of its
    executor and helpers.  The MySQL driver is the environment of the
    module: every driver call may raise, as decided by a fault oracle,
    and a statement that reaches the server is answered by a server
    function.  The module's own code is embedded in a state and
    exception monad over the world it acts on (pool, database, log). *)

From Stdlib Require Import String List ZArith Bool Arith Lia Permutation.
Import ListNotations.
Open Scope string_scope.
Open Scope list_scope.
Set Warnings "-register-all".

(** ** Python values *)

Inductive pyval : Type :=
| PNone
| PBool (b : bool)
| PInt (z : Z)
| PStr (s : string)
| PTuple (items : list pyval)
| PList (items : list pyval).

(** Truth value of an object, as tested by [if x], [x and y], [x or y]
    and [bool(x)]. *)
Definition truthy (v : pyval) : bool :=
  match v with
  | PNone => false
  | PBool b => b
  | PInt z => negb (Z.eqb z 0)
  | PStr s => negb (String.eqb s "")
  | PTuple items => negb (Nat.eqb (length items) 0)
  | PList items => negb (Nat.eqb (length items) 0)
  end.

Definition is_none (v : pyval) : bool :=
  match v with PNone => true | _ => false end.

(** [isinstance(v, tuple)] *)
Definition isinstance_tuple (v : pyval) : bool :=
  match v with PTuple _ => true | _ => false end.

(** [a == b]: numbers compare by value (a bool is the integer 0 or 1),
    strings by characters, tuples and lists item by item; objects of
    unrelated types are unequal. *)
Fixpoint py_eq (a b : pyval) : bool :=
  let fix items_eq (xs ys : list pyval) : bool :=
    match xs, ys with
    | [], [] => true
    | x :: xs', y :: ys' => py_eq x y && items_eq xs' ys'
    | _, _ => false
    end in
  match a, b with
  | PNone, PNone => true
  | PBool x, PBool y => Bool.eqb x y
  | PBool x, PInt y => Z.eqb (Z.b2z x) y
  | PInt x, PBool y => Z.eqb x (Z.b2z y)
  | PInt x, PInt y => Z.eqb x y
  | PStr x, PStr y => String.eqb x y
  | PTuple xs, PTuple ys => items_eq xs ys
  | PList xs, PList ys => items_eq xs ys
  | _, _ => false
  end.

(** [a or b] returns one of its operands. *)
Definition py_or (a b : pyval) : pyval := if truthy a then a else b.

(** ** Exceptions

    Two handlers of the module tell exceptions apart by class:
    [mysql.connector.Error] (with its subclasses, among them
    [PoolError] and [InternalError]) and every other [Exception]. *)

Inductive exn_class : Type := MySQLError | OtherException.

Record exn : Type := mkExn { exn_cls : exn_class; exn_msg : string }.

Definition IndexError : exn := mkExn OtherException "tuple index out of range".
Definition PoolError : exn :=
  mkExn MySQLError "Failed getting connection; pool exhausted".

(** ** The log file *)

Inductive level : Type := DEBUG | INFO | ERROR.

Inductive logarg : Type :=
| LVal (v : pyval)
| LExn (e : exn).

Record logrecord : Type :=
  mkLog { lvl : level; fmt : string; args : list logarg }.

(** ** The database *)

Definition row : Type := list pyval.

Definition user_row : Type := (string * string * string)%type.
Definition traped_row : Type := (string * string * string * string)%type.
Definition message_row : Type := (string * string * string * string)%type.

(** A table that has not been created yet is [None]. *)
Record tables : Type := mkTables {
  USERS : option (list user_row);
  TRAPED : option (list traped_row);
  MESSAGE : option (list message_row)
}.

(** ** Driver calls and the world *)

Inductive op : Type :=
| OpGetConnection
| OpCursor
| OpExecute (q : string)
| OpCommit
| OpFetchall
| OpFetchone
| OpCursorClose
| OpConnClose.

(** The environment of the module.  [fault history o] is the
    exception, if any, with which driver call [o] fails after the calls
    of [history] (most recent first); [server q params t] is the
    server's answer to statement [q] on database [t]: an error, or the
    rows of the result set and the new database. *)
Record env : Type := mkEnv {
  fault : list op -> op -> option exn;
  server : string -> list pyval -> tables -> exn + (list row * tables)
}.

Definition connection : Type := nat.
Record cursor_obj : Type := mkCursor { cursor_of : connection }.

(** [pool]: the idle connections of the pool, oldest first;
    [committed]: the durable database; [session]: the database as the
    connection in use sees it, with its uncommitted changes;
    [unread]: rows of the open cursor not fetched yet;
    [calls]: the driver calls made, most recent first;
    [log]: the records of app.log, most recent first. *)
Record world : Type := mkWorld {
  pool : list connection;
  committed : tables;
  session : tables;
  unread : list row;
  calls : list op;
  log : list logrecord
}.

Definition set_pool (p : list connection) (w : world) : world :=
  match w with mkWorld _ cm se un cs lg => mkWorld p cm se un cs lg end.
Definition set_committed (t : tables) (w : world) : world :=
  match w with mkWorld p _ se un cs lg => mkWorld p t se un cs lg end.
Definition set_session (t : tables) (w : world) : world :=
  match w with mkWorld p cm _ un cs lg => mkWorld p cm t un cs lg end.
Definition set_unread (r : list row) (w : world) : world :=
  match w with mkWorld p cm se _ cs lg => mkWorld p cm se r cs lg end.
Definition add_call (o : op) (w : world) : world :=
  match w with mkWorld p cm se un cs lg => mkWorld p cm se un (o :: cs) lg end.
Definition add_log (r : logrecord) (w : world) : world :=
  match w with mkWorld p cm se un cs lg => mkWorld p cm se un cs (r :: lg) end.

(** ** The monad: state with exceptions

    A computation returns a value or raises, and in both cases leaves a
    state: what was assigned or written before an exception stays. *)

Inductive outcome (A : Type) : Type :=
| Ret (a : A)
| Raise (e : exn).
Arguments Ret {A} a.
Arguments Raise {A} e.

Definition M (S A : Type) : Type := S -> outcome A * S.

Definition ret {S A} (a : A) : M S A := fun s => (Ret a, s).
Definition raise {S A} (e : exn) : M S A := fun s => (Raise e, s).
Definition bind {S A B} (m : M S A) (k : A -> M S B) : M S B :=
  fun s => match m s with
           | (Ret a, s') => k a s'
           | (Raise e, s') => (Raise e, s')
           end.

Declare Scope py_scope.
Delimit Scope py_scope with py.
Notation "x <- m ;; k" := (bind m (fun x => k))
  (at level 61, m at next level, right associativity) : py_scope.
Notation "m ;; k" := (bind m (fun _ => k))
  (at level 61, right associativity) : py_scope.
Open Scope py_scope.

(** [try: body except <class> as e: handler e] where [handler]
    re-raises what it does not handle. *)
Definition try_except {S A} (body : M S A) (handler : exn -> M S A) : M S A :=
  fun s => match body s with
           | (Ret a, s') => (Ret a, s')
           | (Raise e, s') => handler e s'
           end.

(** [try: body finally: fin]: [fin] runs on every exit of [body]; an
    exception of [fin] replaces the outcome of [body]. *)
Definition try_finally {S A} (body : M S A) (fin : M S unit) : M S A :=
  fun s => match body s with
           | (r, s1) =>
               match fin s1 with
               | (Ret _, s2) => (r, s2)
               | (Raise e, s2) => (Raise e, s2)
               end
           end.

Definition when {S} (c : bool) (m : M S unit) : M S unit :=
  if c then m else ret tt.

(** ** logging *)

Definition logging {S} (l : level) (f : string) (a : list logarg)
  (write : logrecord -> S -> S) : M S unit :=
  fun s => (Ret tt, write (mkLog l f a) s).

Definition logging_debug (f : string) (a : list logarg) : M world unit :=
  logging DEBUG f a add_log.
Definition logging_info (f : string) (a : list logarg) : M world unit :=
  logging INFO f a add_log.
Definition logging_error (f : string) (a : list logarg) : M world unit :=
  logging ERROR f a add_log.

(** ** The statements of the module, as written in the source *)

Definition create_users : string :=
"CREATE TABLE IF NOT EXISTS USERS (
                            UID VARCHAR(255) PRIMARY KEY,
                            EMAIL VARCHAR(255) NOT NULL,
                            PASSWORD VARCHAR(255) NOT NULL
                        )".

Definition create_traped : string :=
"CREATE TABLE IF NOT EXISTS TRAPED (
                            OWNER VARCHAR(255) NOT NULL,
                            APP VARCHAR(255) NOT NULL,
                            UID VARCHAR(255) NOT NULL,
                            PASSWORD VARCHAR(255) NOT NULL
                        )".

Definition create_message : string :=
"CREATE TABLE IF NOT EXISTS MESSAGE (
                            UID VARCHAR(255) NOT NULL,
                            NAME VARCHAR(255) NOT NULL,
                            EMAIL VARCHAR(255) NOT NULL,
                            MSG TEXT NOT NULL
                        )".

Definition select_user_exists : string := "SELECT 1 FROM USERS WHERE UID=%s".
Definition insert_user : string :=
  "INSERT INTO USERS (UID, EMAIL, PASSWORD) VALUES (%s, %s, %s)".
Definition select_password : string := "SELECT PASSWORD FROM USERS WHERE UID=%s".
Definition insert_traped : string :=
  "INSERT INTO TRAPED (OWNER, APP, UID, PASSWORD) VALUES (%s, %s, %s, %s)".
Definition select_traped_owner : string :=
  "SELECT OWNER, APP, UID, PASSWORD FROM TRAPED WHERE OWNER=%s".
Definition count_traped_owner : string :=
  "SELECT COUNT(*) FROM TRAPED WHERE OWNER=%s".
Definition select_traped : string := "SELECT OWNER, APP, UID, PASSWORD FROM TRAPED".
Definition count_traped : string := "SELECT COUNT(*) FROM TRAPED".
Definition select_users : string := "SELECT UID, EMAIL, PASSWORD FROM USERS".
Definition count_users : string := "SELECT COUNT(*) FROM USERS".
Definition insert_message : string :=
  "INSERT INTO MESSAGE (UID, NAME, EMAIL, MSG) VALUES (%s, %s, %s, %s)".
Definition select_message : string := "SELECT UID, NAME, EMAIL, MSG FROM MESSAGE".
Definition count_message : string := "SELECT COUNT(*) FROM MESSAGE".

(** ** The driver

    Every call is recorded in [calls] and first consults the fault
    oracle; a call that does not fail acts on the world. *)

Section Driver.

Variable E : env.

Definition call {A} (o : op) (act : M world A) : M world A :=
  fun w => match fault E (calls w) o with
           | Some e => (Raise e, add_call o w)
           | None => act (add_call o w)
           end.

(** [pool.get_connection()]: hands out the oldest idle connection,
    whose session starts from the committed database; an empty pool
    raises [PoolError]. *)
Definition pool_get_connection : M world connection :=
  call OpGetConnection
    (fun w => match pool w with
              | [] => (Raise PoolError, w)
              | c :: idle => (Ret c, set_session (committed w) (set_pool idle w))
              end).

(** [conn.cursor()] *)
Definition conn_cursor (c : connection) : M world cursor_obj :=
  call OpCursor (fun w => (Ret (mkCursor c), set_unread [] w)).

(** [cursor.execute(query, params)] *)
Definition cursor_execute (k : cursor_obj) (query : string)
  (params : list pyval) : M world unit :=
  call (OpExecute query)
    (fun w => match server E query params (session w) with
              | inl e => (Raise e, w)
              | inr (rows, t) => (Ret tt, set_unread rows (set_session t w))
              end).

(** [conn.commit()] *)
Definition conn_commit (c : connection) : M world unit :=
  call OpCommit (fun w => (Ret tt, set_committed (session w) w)).

(** [cursor.fetchall()]: the rows not fetched yet, in order, as a list
    of tuples. *)
Definition cursor_fetchall (k : cursor_obj) : M world pyval :=
  call OpFetchall
    (fun w => (Ret (PList (map PTuple (unread w))), set_unread [] w)).

(** [cursor.fetchone()]: the next row as a tuple, [None] when there is
    none. *)
Definition cursor_fetchone (k : cursor_obj) : M world pyval :=
  call OpFetchone
    (fun w => match unread w with
              | [] => (Ret PNone, w)
              | r :: rest => (Ret (PTuple r), set_unread rest w)
              end).

(** [cursor.close()] *)
Definition cursor_close (k : cursor_obj) : M world unit :=
  call OpCursorClose (fun w => (Ret tt, set_unread [] w)).

(** [conn.close()] of a pooled connection: the session is reset, which
    drops what was not committed, and the connection goes back to the
    pool. *)
Definition conn_close (c : connection) : M world unit :=
  call OpConnClose
    (fun w => (Ret tt, set_session (committed w) (set_pool (pool w ++ [c])%list w))).

(** ** get_connection *)

Definition get_connection : M world connection :=
  try_except pool_get_connection
    (fun err =>
       match exn_cls err with
       | MySQLError =>
           logging_error "Failed to get a connection from the pool: %s" [LExn err] ;;
           raise err
       | OtherException => raise err
       end).

(** ** execute_query

    The local variables of the call are part of the state the body
    runs on, next to the world: what the [try] block assigned before an
    exception is what the [finally] block and the [return] see. *)

Record frame : Type := mkFrame {
  conn : option connection;
  cursor : option cursor_obj;
  result : pyval
}.

Definition local : Type := (frame * world)%type.

Definition global {A} (m : M world A) : M local A :=
  fun s => match m (snd s) with (r, w) => (r, (fst s, w)) end.

Definition assign_conn (c : connection) : M local unit :=
  fun s => (Ret tt, (mkFrame (Some c) (cursor (fst s)) (result (fst s)), snd s)).
Definition assign_cursor (k : cursor_obj) : M local unit :=
  fun s => (Ret tt, (mkFrame (conn (fst s)) (Some k) (result (fst s)), snd s)).
Definition assign_result (v : pyval) : M local unit :=
  fun s => (Ret tt, (mkFrame (conn (fst s)) (cursor (fst s)) v, snd s)).
Definition read {A} (field : frame -> A) : M local A :=
  fun s => (Ret (field (fst s)), s).

(** Runs a function body on fresh local variables. *)
Definition def {A} (locals : frame) (body : M local A) : M world A :=
  fun w => match body (locals, w) with (r, s) => (r, snd s) end.

(** [params or ()]; an empty sequence of parameters gives the same. *)
Definition params_or_empty (params : option (list pyval)) : list pyval :=
  match params with
  | None => []
  | Some ps => ps
  end.

Definition execute_query (query : string) (params : option (list pyval))
  (fetchall commit : bool) : M world pyval :=
  def (mkFrame None None PNone)
    (try_finally
       (try_except
          (c <- global get_connection ;;
           assign_conn c ;;
           k <- global (conn_cursor c) ;;
           assign_cursor k ;;
           global (cursor_execute k query (params_or_empty params)) ;;
           when commit (global (conn_commit c)) ;;
           if fetchall then
             r <- global (cursor_fetchall k) ;;
             assign_result r
           else
             r <- global (cursor_fetchone k) ;;
             assign_result r ;;
             when (negb (is_none r) && negb (isinstance_tuple r))
               (assign_result (PTuple [r])))
          (fun err =>
             match exn_cls err with
             | MySQLError =>
                 global (logging_error "MySQL error occurred: %s" [LExn err])
             | OtherException =>
                 global (logging_error "An unexpected error occurred: %s" [LExn err])
             end))
       (k <- read cursor ;;
        match k with
        | Some k => global (cursor_close k)
        | None => ret tt
        end ;;
        c <- read conn ;;
        match c with
        | Some c => global (conn_close c)
        | None => ret tt
        end) ;;
     read result).

(** ** init_db *)

Definition init_db : M world pyval :=
  try_except
    (execute_query create_users None false true ;;
     execute_query create_traped None false true ;;
     execute_query create_message None false true ;;
     logging_info "All necessary tables checked/created." [])
    (fun e => logging_error "Error during DB initialization: %s" [LExn e]) ;;
  ret PNone.

(** ** The helpers *)

(** [v[0]] *)
Definition getitem0 {S} (v : pyval) : M S pyval :=
  match v with
  | PTuple (x :: _) => ret x
  | PList (x :: _) => ret x
  | PTuple [] => raise IndexError
  | PList [] => raise (mkExn OtherException "list index out of range")
  | PStr (String c _) => ret (PStr (String c ""))
  | PStr "" => raise (mkExn OtherException "string index out of range")
  | _ => raise (mkExn OtherException "object is not subscriptable")
  end.

Definition check_if_user_exists (uid : string) : M world pyval :=
  logging_debug "Checking if user exists with UID: %s" [LVal (PStr uid)] ;;
  result <- execute_query select_user_exists (Some [PStr uid]) true false ;;
  logging_debug "Result: %s" [LVal result] ;;
  ret (PBool (truthy result)).

Definition insert_into_user (uid email pas : string) : M world pyval :=
  execute_query insert_user (Some [PStr uid; PStr email; PStr pas]) false true ;;
  logging_info "User added: %s" [LVal (PStr uid)] ;;
  ret PNone.

(** [result and result[0] == pas]: the right operand is evaluated only
    when [result] is true. *)
Definition check_user_credential (uid pas : string) : M world pyval :=
  result <- execute_query select_password (Some [PStr uid]) false false ;;
  if truthy result then
    stored <- getitem0 result ;;
    ret (PBool (py_eq stored (PStr pas)))
  else ret result.

Definition insert_into_traped (owner site uid pas : string) : M world pyval :=
  execute_query insert_traped
    (Some [PStr owner; PStr site; PStr uid; PStr pas]) false true ;;
  logging_info "User trapped: %s" [LVal (PStr uid)] ;;
  ret PNone.

Definition get_traped_data_for_owner (uid : string) : M world pyval :=
  detail <- execute_query select_traped_owner (Some [PStr uid]) true false ;;
  count_result <- execute_query count_traped_owner (Some [PStr uid]) false false ;;
  count <- (if truthy count_result && isinstance_tuple count_result
            then getitem0 count_result
            else ret (PInt 0)) ;;
  ret (PList [detail; count]).

(** [count_result[0] if isinstance(count_result, tuple) else count_result or 0] *)
Definition count_of {S} (count_result : pyval) : M S pyval :=
  if isinstance_tuple count_result then getitem0 count_result
  else ret (py_or count_result (PInt 0)).

Definition get_traped_data : M world pyval :=
  detail <- execute_query select_traped None true false ;;
  count_result <- execute_query count_traped None false false ;;
  n <- count_of count_result ;;
  ret (PList [detail; n]).

Definition get_user_data : M world pyval :=
  detail <- execute_query select_users None true false ;;
  count_result <- execute_query count_users None false false ;;
  n <- count_of count_result ;;
  ret (PList [detail; n]).

Definition save_feedback (uid name email msg : string) : M world pyval :=
  execute_query insert_message
    (Some [PStr uid; PStr name; PStr email; PStr msg]) false true ;;
  logging_info "Feedback saved: %s" [LVal (PStr uid)] ;;
  ret PNone.

Definition get_feedback_data : M world pyval :=
  detail <- execute_query select_message None true false ;;
  count_result <- execute_query count_message None false false ;;
  n <- count_of count_result ;;
  ret (PList [detail; n]).

End Driver.

(** ** The MySQL server on the schema of the module

    The answer of the server to each statement the module sends, on
    the tables [init_db] creates: [UID] is the primary key of [USERS],
    the [VARCHAR(255)] and [TEXT] columns reject longer strings, the
    other tables take any row.  Strings are matched character by
    character.  Rows come back in insertion order. *)

Definition ProgrammingError : exn :=
  mkExn MySQLError "You have an error in your SQL syntax or its parameters".
Definition NoSuchTable : exn := mkExn MySQLError "Table doesn't exist".
Definition DuplicateEntry : exn :=
  mkExn MySQLError "Duplicate entry for key 'PRIMARY'".
Definition DataTooLong : exn := mkExn MySQLError "Data too long for column".

Definition varchar255 (s : string) : bool := Nat.leb (String.length s) 255.
Definition text (s : string) : bool := N.leb (N.of_nat (String.length s)) 65535%N.

Definition uid_of (r : user_row) : string := fst (fst r).
Definition password_of (r : user_row) : string := snd r.
Definition has_uid (uid : string) (r : user_row) : bool := String.eqb (uid_of r) uid.
Definition owner_of (r : traped_row) : string := fst (fst (fst r)).
Definition has_owner (o : string) (r : traped_row) : bool := String.eqb (owner_of r) o.

Definition user_tuple (r : user_row) : row :=
  match r with (u, e, p) => [PStr u; PStr e; PStr p] end.
Definition four_tuple (r : string * string * string * string) : row :=
  match r with (a, b, c, d) => [PStr a; PStr b; PStr c; PStr d] end.

Definition count_row {A} (l : list A) : list row := [[PInt (Z.of_nat (length l))]].

Definition or_empty {A} (t : option (list A)) : list A :=
  match t with Some l => l | None => [] end.

(** A query on a table that may not exist. *)
Definition from {A} (t : option (list A)) (db : tables)
  (rows : list A -> list row) : exn + (list row * tables) :=
  match t with
  | Some l => inr (rows l, db)
  | None => inl NoSuchTable
  end.

Definition mysql (q : string) (params : list pyval) (t : tables)
  : exn + (list row * tables) :=
  if String.eqb q create_users then
    match params with
    | [] => inr ([], mkTables (Some (or_empty (USERS t))) (TRAPED t) (MESSAGE t))
    | _ => inl ProgrammingError
    end
  else if String.eqb q create_traped then
    match params with
    | [] => inr ([], mkTables (USERS t) (Some (or_empty (TRAPED t))) (MESSAGE t))
    | _ => inl ProgrammingError
    end
  else if String.eqb q create_message then
    match params with
    | [] => inr ([], mkTables (USERS t) (TRAPED t) (Some (or_empty (MESSAGE t))))
    | _ => inl ProgrammingError
    end
  else if String.eqb q select_user_exists then
    match params with
    | [PStr uid] =>
        from (USERS t) t (fun us => map (fun _ => [PInt 1]) (filter (has_uid uid) us))
    | _ => inl ProgrammingError
    end
  else if String.eqb q insert_user then
    match params with
    | [PStr uid; PStr email; PStr pas] =>
        match USERS t with
        | None => inl NoSuchTable
        | Some us =>
            if negb (varchar255 uid && varchar255 email && varchar255 pas)
            then inl DataTooLong
            else if existsb (has_uid uid) us then inl DuplicateEntry
            else inr ([], mkTables (Some (us ++ [(uid, email, pas)])%list)
                                   (TRAPED t) (MESSAGE t))
        end
    | _ => inl ProgrammingError
    end
  else if String.eqb q select_password then
    match params with
    | [PStr uid] =>
        from (USERS t) t
          (fun us => map (fun r => [PStr (password_of r)]) (filter (has_uid uid) us))
    | _ => inl ProgrammingError
    end
  else if String.eqb q insert_traped then
    match params with
    | [PStr owner; PStr site; PStr uid; PStr pas] =>
        match TRAPED t with
        | None => inl NoSuchTable
        | Some rs =>
            if negb (varchar255 owner && varchar255 site
                     && varchar255 uid && varchar255 pas)
            then inl DataTooLong
            else inr ([], mkTables (USERS t)
                                   (Some (rs ++ [(owner, site, uid, pas)])%list)
                                   (MESSAGE t))
        end
    | _ => inl ProgrammingError
    end
  else if String.eqb q select_traped_owner then
    match params with
    | [PStr owner] =>
        from (TRAPED t) t (fun rs => map four_tuple (filter (has_owner owner) rs))
    | _ => inl ProgrammingError
    end
  else if String.eqb q count_traped_owner then
    match params with
    | [PStr owner] =>
        from (TRAPED t) t (fun rs => count_row (filter (has_owner owner) rs))
    | _ => inl ProgrammingError
    end
  else if String.eqb q select_traped then
    match params with
    | [] => from (TRAPED t) t (map four_tuple)
    | _ => inl ProgrammingError
    end
  else if String.eqb q count_traped then
    match params with
    | [] => from (TRAPED t) t count_row
    | _ => inl ProgrammingError
    end
  else if String.eqb q select_users then
    match params with
    | [] => from (USERS t) t (map user_tuple)
    | _ => inl ProgrammingError
    end
  else if String.eqb q count_users then
    match params with
    | [] => from (USERS t) t count_row
    | _ => inl ProgrammingError
    end
  else if String.eqb q insert_message then
    match params with
    | [PStr uid; PStr name; PStr email; PStr msg] =>
        match MESSAGE t with
        | None => inl NoSuchTable
        | Some ms =>
            if negb (varchar255 uid && varchar255 name
                     && varchar255 email && text msg)
            then inl DataTooLong
            else inr ([], mkTables (USERS t) (TRAPED t)
                                   (Some (ms ++ [(uid, name, email, msg)])%list))
        end
    | _ => inl ProgrammingError
    end
  else if String.eqb q select_message then
    match params with
    | [] => from (MESSAGE t) t (map four_tuple)
    | _ => inl ProgrammingError
    end
  else if String.eqb q count_message then
    match params with
    | [] => from (MESSAGE t) t count_row
    | _ => inl ProgrammingError
    end
  else inl ProgrammingError.

(** The driver without faults, talking to that server. *)
Definition no_fault : list op -> op -> option exn := fun _ _ => None.
Definition production : env := mkEnv no_fault mysql.

(** The world at process start: the four connections of [mypool], no
    table yet, an empty log. *)
Definition empty_db : tables := mkTables None None None.
Definition boot : world := mkWorld [0; 1; 2; 3]%nat empty_db empty_db [] [] [].

(** ** Vocabulary of the properties *)

Definition fault_free (E : env) : Prop := forall h o, fault E h o = None.

(** What [execute_query] returns for the rows of a result set. *)
Definition fetched (fetchall : bool) (rows : list row) : pyval :=
  if fetchall then PList (map PTuple rows)
  else match rows with
       | [] => PNone
       | r :: _ => PTuple r
       end.

(** The driver calls of one execution in which the statement is
    accepted, and of one in which the server rejects it. *)
Definition calls_of_success (q : string) (fetchall commit : bool) : list op :=
  [OpConnClose; OpCursorClose; if fetchall then OpFetchall else OpFetchone]
  ++ (if commit then [OpCommit] else [])
  ++ [OpExecute q; OpCursor; OpGetConnection].
Definition calls_of_rejected (q : string) : list op :=
  [OpConnClose; OpCursorClose; OpExecute q; OpCursor; OpGetConnection].

Definition error_record (e : exn) : logrecord :=
  match exn_cls e with
  | MySQLError => mkLog ERROR "MySQL error occurred: %s" [LExn e]
  | OtherException => mkLog ERROR "An unexpected error occurred: %s" [LExn e]
  end.

Definition release_safe (E : env) : Prop :=
  forall h, fault E h OpCursorClose = None /\ fault E h OpConnClose = None.

Definition is_acquisition (o : op) : bool :=
  match o with OpGetConnection => true | _ => false end.

(** How many times [pool.get_connection()] was called. *)
Definition acquisitions (cs : list op) : nat := length (filter is_acquisition cs).

Definition pool_error_record (e : exn) : logrecord :=
  mkLog ERROR "Failed to get a connection from the pool: %s" [LExn e].

(** ** Scenarios *)

(** The world after [init_db]: the three tables exist and are empty. *)
Definition fresh : world := snd (init_db production boot).

Definition two_users_db : tables :=
  mkTables (Some [("u1", "a@b.com", "pw1"); ("u2", "c@d.com", "pw2")])
           (Some []) (Some []).
Definition two_users : world :=
  mkWorld [0; 1; 2; 3]%nat two_users_db two_users_db [] [] [].

(** No idle connection is left in the pool. *)
Definition exhausted : world := mkWorld [] two_users_db two_users_db [] [] [].

(** [cursor.close()] raises, as it does when rows of the result set
    were left unread. *)
Definition UnreadResult : exn := mkExn MySQLError "Unread result found".
Definition close_fails : env :=
  mkEnv (fun _ o => match o with
                    | OpCursorClose => Some UnreadResult
                    | _ => None
                    end) mysql.

(** [conn.close()] raises: the session cannot be reset because the
    server dropped the connection. *)
Definition ConnectionLost : exn := mkExn MySQLError "MySQL Connection not available".
Definition reset_fails : env :=
  mkEnv (fun _ o => match o with
                    | OpConnClose => Some ConnectionLost
                    | _ => None
                    end) mysql.

(** The server refuses the first statement of [init_db]. *)
Definition CreateDenied : exn := mkExn MySQLError "CREATE command denied to user".
Definition users_ddl_denied : env :=
  mkEnv (fun _ o => match o with
                    | OpExecute q =>
                        if String.eqb q create_users then Some CreateDenied else None
                    | _ => None
                    end) mysql.


(** Whether [conn.close()] was called. *)
Definition connection_closed (w : world) : bool :=
  existsb (fun o => match o with OpConnClose => true | _ => false end) (calls w).

Definition tables_created : logrecord :=
  mkLog INFO "All necessary tables checked/created." [].

(** The four helpers that return a pair of rows and count, with the
    two statements each of them runs. *)
Inductive pair_helper : Type :=
| TrapedDataForOwner (uid : string)
| TrapedData
| UserData
| FeedbackData.

Definition call_pair_helper (E : env) (h : pair_helper) : M world pyval :=
  match h with
  | TrapedDataForOwner uid => get_traped_data_for_owner E uid
  | TrapedData => get_traped_data E
  | UserData => get_user_data E
  | FeedbackData => get_feedback_data E
  end.

Definition detail_query_of (h : pair_helper) : string :=
  match h with
  | TrapedDataForOwner _ => select_traped_owner
  | TrapedData => select_traped
  | UserData => select_users
  | FeedbackData => select_message
  end.

Definition count_query_of (h : pair_helper) : string :=
  match h with
  | TrapedDataForOwner _ => count_traped_owner
  | TrapedData => count_traped
  | UserData => count_users
  | FeedbackData => count_message
  end.

Definition params_of (h : pair_helper) : option (list pyval) :=
  match h with
  | TrapedDataForOwner uid => Some [PStr uid]
  | _ => None
  end.


Definition user_added (uid : string) : logrecord :=
  mkLog INFO "User added: %s" [LVal (PStr uid)].
Definition user_trapped (uid : string) : logrecord :=
  mkLog INFO "User trapped: %s" [LVal (PStr uid)].
Definition feedback_saved (uid : string) : logrecord :=
  mkLog INFO "Feedback saved: %s" [LVal (PStr uid)].



(** The row of [USERS] with identifier [uid], if there is one. *)
Definition user_with (uid : string) (t : tables) : option user_row :=
  find (has_uid uid) (or_empty (USERS t)).

(** The database with every table of the schema in place: a table that
    exists keeps its rows, a missing one is created empty. *)
Definition with_tables (t : tables) : tables :=
  mkTables (Some (or_empty (USERS t))) (Some (or_empty (TRAPED t)))
           (Some (or_empty (MESSAGE t))).

(** The rows a pair helper asks for, when their table exists. *)
Definition detail_rows (h : pair_helper) (t : tables) : option (list row) :=
  match h with
  | TrapedDataForOwner owner =>
      option_map (fun rs => map four_tuple (filter (has_owner owner) rs)) (TRAPED t)
  | TrapedData => option_map (map four_tuple) (TRAPED t)
  | UserData => option_map (map user_tuple) (USERS t)
  | FeedbackData => option_map (map four_tuple) (MESSAGE t)
  end.

(** [conn.commit()] raises: the server went away before the commit. *)
Definition CommitLost : exn := mkExn MySQLError "Lost connection to MySQL server during query".
Definition commit_fails : env :=
  mkEnv (fun _ o => match o with
                    | OpCommit => Some CommitLost
                    | _ => None
                    end) mysql.

(** * Properties *)

(** ** Executions without a driver fault *)

Lemma execute_query_fault_free (E : env) (q : string) (ps : option (list pyval))
  (fa c : bool) (w : world) (c0 : connection) (idle : list connection) :
  fault_free E ->
  pool w = c0 :: idle ->
  execute_query E q ps fa c w =
  match server E q (params_or_empty ps) (committed w) with
  | inl e =>
      (Ret PNone,
       mkWorld (idle ++ [c0]) (committed w) (committed w) []
         (calls_of_rejected q ++ calls w) (error_record e :: log w))
  | inr (rows, t) =>
      (Ret (fetched fa rows),
       mkWorld (idle ++ [c0]) (if c then t else committed w)
         (if c then t else committed w) []
         (calls_of_success q fa c ++ calls w) (log w))
  end.
Proof.
  intros HF HP. destruct w as [p cm se un cs lg]. simpl in HP. subst p.
  unfold execute_query, def, try_finally, try_except, bind, global,
    get_connection, try_except, pool_get_connection, conn_cursor,
    cursor_execute, call.
  do 2 (simpl; rewrite ?HF).
  destruct (server E q (params_or_empty ps) cm) as [e | [rows t]].
  - unfold error_record. destruct (exn_cls e); simpl;
      unfold cursor_close, conn_close, call;
      do 3 (simpl; rewrite ?HF); reflexivity.
  - destruct c, fa; simpl;
      unfold conn_commit, cursor_fetchall, cursor_fetchone, cursor_close,
        conn_close, call; do 4 (simpl; rewrite ?HF);
      try (destruct rows; do 3 (simpl; rewrite ?HF)); reflexivity.
Qed.

(** ** Case analysis of one execution

    [drive] follows an execution of the driver through every outcome
    the environment can give to its calls. *)

Ltac unfold_driver :=
  unfold execute_query, def, try_finally, try_except, bind, global,
    get_connection, try_except, pool_get_connection, conn_cursor,
    cursor_execute, conn_commit, cursor_fetchall, cursor_fetchone,
    cursor_close, conn_close, call, when, logging_error, logging,
    assign_conn, assign_cursor, assign_result, read, ret, raise.

Ltac drive :=
  repeat (simpl;
    match goal with
    | |- context [fault ?E ?h ?o] => destruct (fault E h o) eqn:?
    | |- context [server ?E ?q ?p ?t] =>
        destruct (server E q p t) as [? | [? ?]] eqn:?
    | |- context [exn_cls ?e] => destruct (exn_cls e) eqn:?
    | |- context [match ?l with [] => _ | _ :: _ => _ end] =>
        is_var l; destruct l
    end).

Lemma cons_neq {A} (x : A) (l : list A) : x :: l <> l.
Proof.
  intro H. apply (f_equal (@length A)) in H. simpl in H. lia.
Qed.

Lemma cons_cons_neq {A} (x y : A) (l : list A) : x :: y :: l <> l.
Proof.
  intro H. apply (f_equal (@length A)) in H. simpl in H. lia.
Qed.


(** ** Executions in which releasing does not fail *)

Ltac drive_safe H1 H2 :=
  repeat (simpl;
    first
      [ rewrite H1
      | rewrite H2
      | match goal with
        | |- context [fault ?E ?h ?o] => destruct (fault E h o) eqn:?
        | |- context [server ?E ?q ?p ?t] =>
            destruct (server E q p t) as [? | [? ?]] eqn:?
        | |- context [exn_cls ?e] => destruct (exn_cls e) eqn:?
        | |- context [match ?l with [] => _ | _ :: _ => _ end] =>
            is_var l; destruct l
        end ]).

Lemma pool_rotated (c0 : connection) (idle : list connection) :
  Permutation (idle ++ [c0]) (c0 :: idle).
Proof.
  apply Permutation_sym, Permutation_cons_append.
Qed.

(** When releasing does not fail, [execute_query] returns on every
    path: it has called the pool once, the pool holds the connections
    it held before, and either nothing was logged or the value is
    [None]. *)
Lemma execute_query_release_safe (E : env) (q : string)
  (ps : option (list pyval)) (fa c : bool) (w : world) :
  release_safe E ->
  exists v w',
    execute_query E q ps fa c w = (Ret v, w')
    /\ Permutation (pool w') (pool w)
    /\ acquisitions (calls w') = S (acquisitions (calls w))
    /\ (log w' = log w \/ v = PNone).
Proof.
  intros HR.
  assert (H1 : forall h, fault E h OpCursorClose = None) by (intro; apply HR).
  assert (H2 : forall h, fault E h OpConnClose = None) by (intro; apply HR).
  destruct w as [p cm se un cs lg]. unfold_driver.
  destruct c, fa; drive_safe H1 H2;
    (eexists; eexists; split; [reflexivity | ]); simpl;
    (split; [first [apply Permutation_refl | apply pool_rotated] | ]);
    (split; [reflexivity | ]); auto.
Qed.

(** ** get_connection *)



(** What [get_connection] does with the other outcomes of the pool: a
    connection is passed on, and an error that is not a MySQL error is
    raised on without a log record. *)
Lemma get_connection_other_outcomes (E : env) (w w1 : world) :
  (forall c, pool_get_connection E w = (Ret c, w1) ->
             get_connection E w = (Ret c, w1))
  /\ (forall e, pool_get_connection E w = (Raise e, w1) ->
                exn_cls e = OtherException ->
                get_connection E w = (Raise e, w1)).
Proof.
  split; intros x HP; unfold get_connection, try_except; rewrite HP.
  - reflexivity.
  - intros HC. rewrite HC. reflexivity.
Qed.

(** ** init_db *)




(** ** The helpers that return rows and a count *)

(** C9. When the query for the rows returned [None] and the query for
    the count returned [None] as well, each of the four helpers returns
    the pair [[None, 0]]; it returns that same pair when the count was
    queried successfully and is zero, so the pair does not tell a
    failure from a count of zero. *)
Theorem pair_helpers_hide_failure (E : env) (h : pair_helper) (w w1 : world) :
  execute_query E (detail_query_of h) (params_of h) true false w = (Ret PNone, w1) ->
  fst (execute_query E (count_query_of h) (params_of h) false false w1) = Ret PNone
  \/ fst (execute_query E (count_query_of h) (params_of h) false false w1)
     = Ret (PTuple [PInt 0]) ->
  fst (call_pair_helper E h w) = Ret (PList [PNone; PInt 0]).
Proof.
  intros HD HC.
  destruct h; simpl in *;
    unfold get_traped_data_for_owner, get_traped_data, get_user_data,
      get_feedback_data, bind;
    rewrite HD;
    match goal with
    | |- context [execute_query ?E ?q ?p ?f ?c ?x] =>
        destruct (execute_query E q p f c x) as [r w2]
    end;
    simpl in HC; destruct HC as [HC | HC]; subst r; reflexivity.
Qed.

Lemma pair_helpers_hide_failure_witness :
  fst (call_pair_helper production UserData exhausted)
  = Ret (PList [PNone; PInt 0]).
Proof.
  apply (pair_helpers_hide_failure production UserData exhausted
           (snd (execute_query production select_users None true false exhausted))).
  - reflexivity.
  - left. reflexivity.
Defined.

(** ** execute_query: errors and release *)

(** Where releasing does not raise, no error leaves [execute_query]:
    it returns, and when it has logged something its value is [None]. *)
Lemma execute_query_catches (E : env) (q : string) (ps : option (list pyval))
  (fa c : bool) (w : world) :
  release_safe E ->
  exists v w',
    execute_query E q ps fa c w = (Ret v, w')
    /\ (log w' <> log w -> v = PNone).
Proof.
  intros HR.
  destruct (execute_query_release_safe E q ps fa c w HR)
    as (v & w' & X & _ & _ & [HL | HV]).
  - exists v, w'. split; [exact X | ]. intros HN. contradiction.
  - exists v, w'. split; [exact X | ]. intros _. exact HV.
Qed.

(** C1 at its failing input.  The statement is executed and its first
    row fetched; then [cursor.close()] raises in the [finally] block,
    outside the two handlers, and the error reaches the caller of
    [execute_query] instead of a [None]. *)
Theorem execute_query_close_error_escapes :
  fst (execute_query close_fails select_users None false false two_users)
  = Raise UnreadResult.
Proof.
  vm_compute. reflexivity.
Qed.

(** C7 at its failing input.  When [cursor.close()] raises in the
    [finally] block, [conn.close()] is not reached: the connection
    taken from the pool is not given back. *)
Theorem execute_query_close_error_leaks_connection :
  pool two_users = [0; 1; 2; 3]%nat
  /\ pool (snd (execute_query close_fails select_users None false false two_users))
     = [1; 2; 3]%nat
  /\ connection_closed
       (snd (execute_query close_fails select_users None false false two_users))
     = false.
Proof.
  vm_compute. repeat split; reflexivity.
Qed.

(** ** The insert helpers *)

(** X6. Where releasing does not raise, each insert helper returns
    [None] with its record as the last line of the log, whatever
    became of the INSERT. *)
Lemma insert_helpers_always_report (E : env) (w : world) :
  release_safe E ->
  (forall uid email pas,
      exists w', insert_into_user E uid email pas w = (Ret PNone, w')
                 /\ hd_error (log w') = Some (user_added uid))
  /\ (forall owner site uid pas,
      exists w', insert_into_traped E owner site uid pas w = (Ret PNone, w')
                 /\ hd_error (log w') = Some (user_trapped uid))
  /\ (forall uid name email msg,
      exists w', save_feedback E uid name email msg w = (Ret PNone, w')
                 /\ hd_error (log w') = Some (feedback_saved uid)).
Proof.
  intros HR. repeat split; intros;
    unfold insert_into_user, insert_into_traped, save_feedback, bind;
    match goal with
    | |- context [execute_query ?E ?q ?p ?f ?c ?x] =>
        destruct (execute_query_release_safe E q p f c x HR)
          as (v & w1 & X & _)
    end;
    rewrite X; destruct w1; eexists; split; reflexivity.
Qed.

(** C10 at its failing input.  The INSERT is executed and committed;
    then [conn.close()] raises in the [finally] block of
    [execute_query], the error passes through [insert_into_user], and
    no record of the added user is written although the row is in the
    table. *)
Theorem insert_into_user_raises_on_release_error :
  fst (insert_into_user reset_fails "u1" "a@b.com" "pw1" fresh)
  = Raise ConnectionLost
  /\ log (snd (insert_into_user reset_fails "u1" "a@b.com" "pw1" fresh))
     = log fresh
  /\ USERS (committed (snd (insert_into_user reset_fails "u1" "a@b.com" "pw1" fresh)))
     = Some [("u1", "a@b.com", "pw1")].
Proof.
  vm_compute. repeat split; reflexivity.
Qed.

(** ** On the production driver *)

Lemma production_fault_free : fault_free production.
Proof.
  intros h o. reflexivity.
Qed.

Lemma rotated_nonempty (c0 : connection) (idle : list connection) :
  idle ++ [c0] <> [].
Proof.
  destruct idle; discriminate.
Qed.

(** With an idle connection in the pool, [execute_query] returns what
    the server answers: [None] for a rejected statement, the fetched
    rows otherwise; the database changes only by a committed
    statement, and a connection is idle again afterwards. *)
Lemma execute_query_production (q : string) (ps : option (list pyval))
  (fa c : bool) (w : world) :
  pool w <> [] ->
  exists w2,
    execute_query production q ps fa c w
    = (Ret match mysql q (params_or_empty ps) (committed w) with
           | inl _ => PNone
           | inr (rows, _) => fetched fa rows
           end, w2)
    /\ committed w2 = match mysql q (params_or_empty ps) (committed w) with
                      | inl _ => committed w
                      | inr (_, t) => if c then t else committed w
                      end
    /\ log w2 = match mysql q (params_or_empty ps) (committed w) with
                | inl e => error_record e :: log w
                | inr _ => log w
                end
    /\ pool w2 <> [].
Proof.
  intros HP. destruct (pool w) as [ | c0 idle] eqn:HW; [contradiction | ].
  rewrite (execute_query_fault_free production q ps fa c w c0 idle
             production_fault_free HW).
  change (server production) with mysql.
  destruct (mysql q (params_or_empty ps) (committed w)) as [e | [rows t]];
    eexists; (split; [reflexivity | ]); simpl;
    repeat split; try apply rotated_nonempty.
Qed.

Lemma mysql_select_user_exists (uid : string) (t : tables) :
  mysql select_user_exists [PStr uid] t
  = from (USERS t) t (fun us => map (fun _ => [PInt 1]) (filter (has_uid uid) us)).
Proof. reflexivity. Qed.

Lemma mysql_select_password (uid : string) (t : tables) :
  mysql select_password [PStr uid] t
  = from (USERS t) t
      (fun us => map (fun r => [PStr (password_of r)]) (filter (has_uid uid) us)).
Proof. reflexivity. Qed.

Lemma mysql_insert_user (uid email pas : string) (t : tables) :
  mysql insert_user [PStr uid; PStr email; PStr pas] t
  = match USERS t with
    | None => inl NoSuchTable
    | Some us =>
        if negb (varchar255 uid && varchar255 email && varchar255 pas)
        then inl DataTooLong
        else if existsb (has_uid uid) us then inl DuplicateEntry
        else inr ([], mkTables (Some (us ++ [(uid, email, pas)]))
                               (TRAPED t) (MESSAGE t))
    end.
Proof. reflexivity. Qed.

Lemma filter_nonempty {A} (f : A -> bool) (l : list A) :
  negb (Nat.eqb (length (filter f l)) 0) = existsb f l.
Proof.
  induction l as [ | x l IH]; simpl; [reflexivity | ].
  destruct (f x); simpl; [reflexivity | exact IH].
Qed.

Lemma filter_head_find {A} (f : A -> bool) (l : list A) :
  hd_error (filter f l) = find f l.
Proof.
  induction l as [ | x l IH]; simpl; [reflexivity | ].
  destruct (f x); simpl; [reflexivity | exact IH].
Qed.

Lemma find_app_fresh {A} (f : A -> bool) (l : list A) (x : A) :
  existsb f l = false -> f x = true -> find f (l ++ [x]) = Some x.
Proof.
  induction l as [ | y l IH]; simpl; intros HE HX.
  - rewrite HX. reflexivity.
  - destruct (f y); simpl in HE; [discriminate | auto].
Qed.

(** ** check_if_user_exists and check_user_credential *)

Lemma check_if_user_exists_production (uid : string) (w : world) :
  pool w <> [] ->
  exists w2,
    check_if_user_exists production uid w
    = (Ret (PBool (existsb (has_uid uid) (or_empty (USERS (committed w))))), w2)
    /\ committed w2 = committed w
    /\ pool w2 <> [].
Proof.
  intros HP. unfold check_if_user_exists, bind, logging_debug, logging.
  destruct w as [p cm se un cs lg]. simpl in HP.
  match goal with
  | |- context [execute_query ?E ?q ?ps ?f ?c ?x] =>
      destruct (execute_query_production q ps f c x) as (w2 & X & HC & _ & HP2);
        [exact HP | rewrite X]
  end.
  clear X. simpl in HC |- *. rewrite mysql_select_user_exists in *.
  assert (HV : truthy
                 match from (USERS cm) cm
                         (fun us => map (fun _ : user_row => [PInt 1])
                                        (filter (has_uid uid) us)) with
                 | inl _ => PNone
                 | inr (rows, _) => PList (map PTuple rows)
                 end
               = existsb (has_uid uid) (or_empty (USERS cm))).
  { destruct (USERS cm) as [us | ]; simpl; [ | reflexivity].
    rewrite !length_map. apply filter_nonempty. }
  unfold ret. rewrite HV.
  destruct w2 as [p2 cm2 se2 un2 cs2 lg2]. simpl in *.
  eexists. split; [reflexivity | ]. simpl. split; [ | exact HP2].
  rewrite HC. destruct (USERS cm); reflexivity.
Qed.

Lemma check_user_credential_production (uid pas : string) (w : world) :
  pool w <> [] ->
  exists w2,
    check_user_credential production uid pas w
    = (Ret match user_with uid (committed w) with
           | Some r => PBool (String.eqb (password_of r) pas)
           | None => PNone
           end, w2)
    /\ committed w2 = committed w
    /\ pool w2 <> [].
Proof.
  intros HP. unfold check_user_credential, bind.
  destruct (execute_query_production select_password (Some [PStr uid])
              false false w HP) as (w2 & X & HC & _ & HP2).
  rewrite X. clear X. unfold params_or_empty in *.
  rewrite mysql_select_password in HC. rewrite mysql_select_password.
  exists w2. split; [ | split; [ | exact HP2]].
  - unfold user_with. rewrite <- filter_head_find.
    destruct (USERS (committed w)) as [us | ]; simpl; [ | reflexivity].
    destruct (filter (has_uid uid) us) as [ | r rest]; reflexivity.
  - rewrite HC. destruct (USERS (committed w)); reflexivity.
Qed.



(** C2, as stated, fails.  For an identifier that no row of [USERS]
    has, [check_user_credential] returns the [None] it got from
    [execute_query], which is not a boolean. *)
Lemma check_user_credential_returns_none :
  fst (check_user_credential production "nobody" "pw1" two_users) = Ret PNone
  /\ ~ exists b : bool,
         fst (check_user_credential production "nobody" "pw1" two_users)
         = Ret (PBool b).
Proof.
  split.
  - vm_compute. reflexivity.
  - intros [b H]. vm_compute in H. discriminate H.
Qed.

(** C2, amended.  With a connection idle in the pool,
    [check_user_credential] returns [True] when the row of that
    identifier holds the password supplied, [False] when it holds
    another one, the passwords being compared character by character;
    when there is no row for the identifier it returns [None], which
    is false as a condition but is not a boolean. *)
Theorem check_user_credential_by_row (uid pas : string) (w : world) :
  pool w <> [] ->
  fst (check_user_credential production uid pas w)
  = Ret match user_with uid (committed w) with
        | Some r => PBool (String.eqb (password_of r) pas)
        | None => PNone
        end.
Proof.
  intros HP.
  destruct (check_user_credential_production uid pas w HP) as (w2 & X & _).
  rewrite X. reflexivity.
Qed.

Lemma check_user_credential_by_row_witness :
  fst (check_user_credential production "u2" "pw2" two_users)
  = Ret match user_with "u2" (committed two_users) with
        | Some r => PBool (String.eqb (password_of r) "pw2")
        | None => PNone
        end.
Proof.
  apply (check_user_credential_by_row "u2" "pw2" two_users). discriminate.
Defined.

(** ** insert_into_user, then the checks *)

(** With no idle connection, the pool raises [PoolError], which
    [get_connection] and then [execute_query] log; the call returns
    [None] and the pool stays empty. *)
Lemma execute_query_exhausted (q : string) (ps : option (list pyval))
  (fa c : bool) (w : world) :
  pool w = [] ->
  execute_query production q ps fa c w
  = (Ret PNone,
     add_log (error_record PoolError)
       (add_log (pool_error_record PoolError) (add_call OpGetConnection w))).
Proof.
  intros HW. destruct w as [p cm se un cs lg]. simpl in HW. subst p.
  reflexivity.
Qed.

(** An insert that logged no error has put its row in [USERS], where
    no row had that identifier before. *)
Lemma insert_into_user_success (uid email pas : string) (w w' : world) :
  insert_into_user production uid email pas w = (Ret PNone, w') ->
  log w' = user_added uid :: log w ->
  pool w' <> []
  /\ exists us,
       existsb (has_uid uid) us = false
       /\ USERS (committed w') = Some (us ++ [(uid, email, pas)]).
Proof.
  unfold insert_into_user, bind, logging_info, logging, ret.
  intros H HL.
  destruct (pool w) as [ | c0 idle] eqn:HW.
  - exfalso.
    rewrite (execute_query_exhausted _ _ _ _ w HW) in H.
    injection H as H. subst w'.
    destruct w. simpl in HL. injection HL as HL.
    exact (cons_cons_neq _ _ _ HL).
  - destruct (execute_query_production insert_user
                (Some [PStr uid; PStr email; PStr pas]) false true w)
      as (w2 & X & HC & HG & HP2).
    + rewrite HW. discriminate.
    + rewrite X in H. injection H as H. subst w'.
      unfold params_or_empty in *. rewrite mysql_insert_user in *.
      destruct w2 as [p2 cm2 se2 un2 cs2 lg2]. simpl in *.
      injection HL as HL. subst lg2.
      split; [exact HP2 | ].
      destruct (USERS (committed w)) as [us | ];
        [ | exfalso; exact (cons_neq _ _ (eq_sym HG))].
      destruct (negb (varchar255 uid && varchar255 email && varchar255 pas));
        [exfalso; exact (cons_neq _ _ (eq_sym HG)) | ].
      destruct (existsb (has_uid uid) us) eqn:HE;
        [exfalso; exact (cons_neq _ _ (eq_sym HG)) | ].
      exists us. subst cm2. split; [exact HE | reflexivity].
Qed.

(** C4. After an [insert_into_user] that logged no error, that is, an
    INSERT the database accepted and committed, the checks made next
    find the user: [check_if_user_exists] returns [True],
    [check_user_credential] returns [True] for the password inserted
    and [False] for every other password. *)
Theorem inserted_user_is_found (uid email pas : string) (w w' : world) :
  insert_into_user production uid email pas w = (Ret PNone, w') ->
  log w' = user_added uid :: log w ->
  exists w1 w2,
    check_if_user_exists production uid w' = (Ret (PBool true), w1)
    /\ check_user_credential production uid pas w1 = (Ret (PBool true), w2)
    /\ forall wrong,
         wrong <> pas ->
         fst (check_user_credential production uid wrong w2) = Ret (PBool false).
Proof.
  intros H HL.
  destruct (insert_into_user_success uid email pas w w' H HL)
    as (HP & us & HE & HU).
  assert (HX : has_uid uid (uid, email, pas) = true)
    by (unfold has_uid; simpl; apply String.eqb_refl).
  destruct (check_if_user_exists_production uid w' HP) as (w1 & X1 & C1 & P1).
  destruct (check_user_credential_production uid pas w1 P1) as (w2 & X2 & C2 & P2).
  exists w1, w2. split; [ | split].
  - rewrite X1, HU. simpl. rewrite existsb_app. simpl. rewrite HX.
    rewrite orb_true_r. reflexivity.
  - rewrite X2. unfold user_with. rewrite C1, HU. unfold or_empty.
    match goal with
    | |- context [find ?f ?l] =>
        replace (find f l) with (Some (uid, email, pas))
          by (symmetry; apply find_app_fresh; assumption)
    end.
    simpl.
    rewrite String.eqb_refl. reflexivity.
  - intros wrong HN.
    destruct (check_user_credential_production uid wrong w2 P2) as (w3 & X3 & _).
    rewrite X3. unfold user_with. rewrite C2, C1, HU. unfold or_empty.
    match goal with
    | |- context [find ?f ?l] =>
        replace (find f l) with (Some (uid, email, pas))
          by (symmetry; apply find_app_fresh; assumption)
    end.
    simpl.
    destruct (String.eqb_spec pas wrong) as [HEq | _];
      [exfalso; apply HN; symmetry; exact HEq | reflexivity].
Qed.

Lemma inserted_user_is_found_witness :
  exists w1 w2,
    check_if_user_exists production "u1"
      (snd (insert_into_user production "u1" "a@b.com" "pw1" fresh))
    = (Ret (PBool true), w1)
    /\ check_user_credential production "u1" "pw1" w1 = (Ret (PBool true), w2)
    /\ forall wrong,
         wrong <> "pw1" ->
         fst (check_user_credential production "u1" wrong w2) = Ret (PBool false).
Proof.
  apply (inserted_user_is_found "u1" "a@b.com" "pw1" fresh
           (snd (insert_into_user production "u1" "a@b.com" "pw1" fresh)));
    reflexivity.
Defined.

(** ** execute_query: what is fetched *)




(** * Further properties *)

(** ** execute_query in every environment *)

Ltac tidy :=
  repeat match goal with
         | H : inl _ = inr _ |- _ => discriminate H
         | H : inr _ = inl _ |- _ => discriminate H
         | H : inr _ = inr _ |- _ => injection H as ? ?; subst
         | H : inl _ = inl _ |- _ => injection H as ?; subst
         end.

(** X1. Whatever the driver does, the durable database after a call of
    [execute_query] is the one before it, or, and only for a call with
    [commit] set, the one the server computed for the statement. *)
Theorem execute_query_durable_change (E : env) (q : string)
  (ps : option (list pyval)) (fa c : bool) (w : world) :
  committed (snd (execute_query E q ps fa c w)) = committed w
  \/ (c = true
      /\ exists rows t,
           server E q (params_or_empty ps) (committed w) = inr (rows, t)
           /\ committed (snd (execute_query E q ps fa c w)) = t).
Proof.
  destruct w as [p cm se un cs lg]. unfold_driver.
  destruct c, fa; drive; tidy;
    first [ left; reflexivity
          | right; split; [reflexivity | eexists; eexists; split; reflexivity] ].
Qed.

(** X2. A call of [execute_query] takes at most one connection out of
    the pool, the oldest: afterwards the pool holds the connections it
    held before, or those but the first. *)
Theorem execute_query_pool_loss (E : env) (q : string)
  (ps : option (list pyval)) (fa c : bool) (w : world) :
  Permutation (pool (snd (execute_query E q ps fa c w))) (pool w)
  \/ exists c0, pool w = c0 :: pool (snd (execute_query E q ps fa c w)).
Proof.
  destruct w as [p cm se un cs lg]. unfold_driver.
  destruct c, fa; drive;
    first [ left; apply Permutation_refl
          | left; apply pool_rotated
          | right; eexists; reflexivity ].
Qed.

(** X3. [execute_query] writes error records only, at most two in a
    call, and none in a call that returns a value other than [None]. *)
Theorem execute_query_logs_errors_only (E : env) (q : string)
  (ps : option (list pyval)) (fa c : bool) (w : world) :
  exists written,
    log (snd (execute_query E q ps fa c w)) = written ++ log w
    /\ length written <= 2
    /\ Forall (fun r => lvl r = ERROR) written
    /\ forall v, fst (execute_query E q ps fa c w) = Ret v ->
                 v <> PNone -> written = [].
Proof.
  destruct w as [p cm se un cs lg]. unfold_driver.
  destruct c, fa; drive; simpl;
    first [ exists []; split; [reflexivity | ]
          | eexists [_]; split; [reflexivity | ]
          | eexists [_; _]; split; [reflexivity | ] ];
    (split; [simpl; lia | ]);
    (split; [repeat constructor | ]);
    intros v H HN; try reflexivity; try discriminate H;
    injection H as H; subst v; contradiction.
Qed.



(** X5. Where releasing the cursor and the connection does not raise,
    [execute_query] returns on every path, whatever else fails: it has
    asked the pool for a connection exactly once, the pool holds the
    connections it held before, and a call that logged anything
    returns [None]. *)
Theorem execute_query_returns_when_release_safe (E : env) (q : string)
  (ps : option (list pyval)) (fa c : bool) (w : world) :
  release_safe E ->
  exists v w',
    execute_query E q ps fa c w = (Ret v, w')
    /\ Permutation (pool w') (pool w)
    /\ acquisitions (calls w') = S (acquisitions (calls w))
    /\ (log w' <> log w -> v = PNone).
Proof.
  intros HR.
  destruct (execute_query_release_safe E q ps fa c w HR)
    as (v & w' & X & HP & HA & HL).
  exists v, w'. repeat split; auto.
  intros HN. destruct HL as [HL | HL]; [contradiction | exact HL].
Qed.

Lemma execute_query_returns_when_release_safe_witness :
  exists v w',
    execute_query users_ddl_denied create_users None false true boot = (Ret v, w')
    /\ Permutation (pool w') (pool boot)
    /\ acquisitions (calls w') = S (acquisitions (calls boot))
    /\ (log w' <> log boot -> v = PNone).
Proof.
  apply (execute_query_returns_when_release_safe users_ddl_denied
           create_users None false true boot).
  intro h. split; reflexivity.
Defined.

Lemma insert_helpers_always_report_witness :
  (forall uid email pas,
      exists w', insert_into_user users_ddl_denied uid email pas boot = (Ret PNone, w')
                 /\ hd_error (log w') = Some (user_added uid))
  /\ (forall owner site uid pas,
      exists w', insert_into_traped users_ddl_denied owner site uid pas boot
                 = (Ret PNone, w')
                 /\ hd_error (log w') = Some (user_trapped uid))
  /\ (forall uid name email msg,
      exists w', save_feedback users_ddl_denied uid name email msg boot
                 = (Ret PNone, w')
                 /\ hd_error (log w') = Some (feedback_saved uid)).
Proof.
  apply (insert_helpers_always_report users_ddl_denied boot).
  intro h. split; reflexivity.
Defined.

(** ** The helpers that only read *)

Lemma execute_query_without_commit (E : env) (q : string)
  (ps : option (list pyval)) (fa : bool) (w : world) :
  committed (snd (execute_query E q ps fa false w)) = committed w.
Proof.
  destruct w as [p cm se un cs lg]. unfold_driver.
  destruct fa; drive; reflexivity.
Qed.

Lemma getitem0_state {S} (v : pyval) (s : S) : snd (getitem0 v s) = s.
Proof.
  destruct v as [ | b | z | t | [ | x l] | [ | x l]]; try reflexivity.
  destruct t; reflexivity.
Qed.

Lemma count_of_state {S} (v : pyval) (s : S) : snd (count_of v s) = s.
Proof.
  unfold count_of. destruct (isinstance_tuple v);
    [apply getitem0_state | reflexivity].
Qed.

Ltac after_query :=
  match goal with
  | |- context [execute_query ?E ?q ?p ?f false ?x] =>
      let H := fresh "HQ" in
      pose proof (execute_query_without_commit E q p f x) as H;
      destruct (execute_query E q p f false x) as [[? | ?] ?];
      simpl in H
  end.

(** X7. In every environment, and also when a query fails or an
    error escapes, the helpers that read leave the durable database as
    it was: [check_if_user_exists], [check_user_credential] and the
    four helpers that return rows and a count. *)
Theorem read_helpers_leave_database (E : env) (w : world) :
  (forall uid, committed (snd (check_if_user_exists E uid w)) = committed w)
  /\ (forall uid pas,
        committed (snd (check_user_credential E uid pas w)) = committed w)
  /\ (forall h, committed (snd (call_pair_helper E h w)) = committed w).
Proof.
  split; [ | split].
  - intros uid. unfold check_if_user_exists, bind, logging_debug, logging, ret.
    after_query; destruct w; simpl in *;
      try match goal with |- context [add_log _ ?x] => destruct x end;
      simpl in *; assumption.
  - intros uid pas. unfold check_user_credential, bind.
    after_query; simpl; [ | assumption].
    match goal with |- context [truthy ?v] => destruct (truthy v) end;
      [ | simpl; assumption].
    match goal with
    | |- context [getitem0 ?v ?s] =>
        pose proof (getitem0_state v s) as HG; destruct (getitem0 v s) as [[? | ?] ?]
    end; simpl in *; subst; assumption.
  - intros h.
    destruct h; simpl;
      unfold get_traped_data_for_owner, get_traped_data, get_user_data,
        get_feedback_data, bind;
      (after_query; simpl; [ | assumption]);
      (after_query; simpl; [ | congruence]);
      match goal with
      | |- context [if ?b then _ else _] => destruct b
      | _ => idtac
      end;
      match goal with
      | |- context [getitem0 ?v ?s] =>
          pose proof (getitem0_state v s) as HG;
          destruct (getitem0 v s) as [[? | ?] ?]
      | |- context [count_of ?v ?s] =>
          pose proof (count_of_state v s) as HG;
          destruct (count_of v s) as [[? | ?] ?]
      | _ => idtac
      end; simpl in *; subst; congruence.
Qed.

(** ** init_db on the production driver *)

Lemma mysql_create_users (t : tables) :
  mysql create_users [] t
  = inr ([], mkTables (Some (or_empty (USERS t))) (TRAPED t) (MESSAGE t)).
Proof. reflexivity. Qed.

Lemma mysql_create_traped (t : tables) :
  mysql create_traped [] t
  = inr ([], mkTables (USERS t) (Some (or_empty (TRAPED t))) (MESSAGE t)).
Proof. reflexivity. Qed.

Lemma mysql_create_message (t : tables) :
  mysql create_message [] t
  = inr ([], mkTables (USERS t) (TRAPED t) (Some (or_empty (MESSAGE t)))).
Proof. reflexivity. Qed.

Lemma init_db_production (w : world) :
  pool w <> [] ->
  exists w',
    init_db production w = (Ret PNone, w')
    /\ committed w' = with_tables (committed w)
    /\ log w' = tables_created :: log w
    /\ pool w' <> [].
Proof.
  intros HP. unfold init_db, try_except, bind, logging_info, logging, ret.
  destruct (execute_query_production create_users None false true w HP)
    as (w1 & X1 & C1 & L1 & P1).
  destruct (execute_query_production create_traped None false true w1 P1)
    as (w2 & X2 & C2 & L2 & P2).
  destruct (execute_query_production create_message None false true w2 P2)
    as (w3 & X3 & C3 & L3 & P3).
  rewrite X1, X2, X3. unfold params_or_empty in *.
  rewrite mysql_create_users in *. rewrite mysql_create_traped in *.
  rewrite mysql_create_message in *.
  destruct w3 as [p3 cm3 se3 un3 cs3 lg3]. simpl in *.
  eexists. split; [reflexivity | ]. simpl.
  split; [ | split; [ | exact P3]].
  - rewrite C3, C2, C1. reflexivity.
  - rewrite L3, L2, L1. reflexivity.
Qed.

(** X8. With a connection idle in the pool, [init_db] leaves all three
    tables in place, each existing table with the rows it had, and
    writes its completion record; a second call changes nothing in the
    database. *)
Theorem init_db_creates_once (w : world) :
  pool w <> [] ->
  exists w1 w2,
    init_db production w = (Ret PNone, w1)
    /\ committed w1 = with_tables (committed w)
    /\ log w1 = tables_created :: log w
    /\ init_db production w1 = (Ret PNone, w2)
    /\ committed w2 = committed w1.
Proof.
  intros HP.
  destruct (init_db_production w HP) as (w1 & X1 & C1 & L1 & P1).
  destruct (init_db_production w1 P1) as (w2 & X2 & C2 & _ & _).
  exists w1, w2. repeat split; auto.
  rewrite C2, C1. reflexivity.
Qed.

Lemma init_db_creates_once_witness :
  exists w1 w2,
    init_db production two_users = (Ret PNone, w1)
    /\ committed w1 = with_tables (committed two_users)
    /\ log w1 = tables_created :: log two_users
    /\ init_db production w1 = (Ret PNone, w2)
    /\ committed w2 = committed w1.
Proof.
  apply (init_db_creates_once two_users). discriminate.
Defined.

(** ** An exhausted pool *)

Lemma exhausted_stays (w : world) :
  pool w = [] ->
  pool (add_log (error_record PoolError)
          (add_log (pool_error_record PoolError) (add_call OpGetConnection w)))
  = [].
Proof.
  destruct w. simpl. auto.
Qed.

(** X9. With no idle connection left in the pool, every user looks
    missing and every table empty, whatever the database holds:
    [check_if_user_exists] returns [False], [check_user_credential]
    returns [None], and the helpers that return rows and a count
    return [[None, 0]]. *)
Theorem exhausted_pool_hides_data (w : world) :
  pool w = [] ->
  (forall uid, fst (check_if_user_exists production uid w) = Ret (PBool false))
  /\ (forall uid pas, fst (check_user_credential production uid pas w) = Ret PNone)
  /\ (forall h, fst (call_pair_helper production h w) = Ret (PList [PNone; PInt 0])).
Proof.
  intros HW. split; [ | split].
  - intros uid. unfold check_if_user_exists, bind, logging_debug, logging.
    rewrite execute_query_exhausted by (destruct w; exact HW). reflexivity.
  - intros uid pas. unfold check_user_credential, bind.
    rewrite (execute_query_exhausted _ _ _ _ w HW). reflexivity.
  - intros h.
    destruct h; simpl;
      unfold get_traped_data_for_owner, get_traped_data, get_user_data,
        get_feedback_data, bind;
      rewrite (execute_query_exhausted _ _ _ _ w HW);
      rewrite execute_query_exhausted by (apply exhausted_stays; exact HW);
      reflexivity.
Qed.

Lemma exhausted_pool_hides_data_witness :
  (forall uid, fst (check_if_user_exists production uid exhausted) = Ret (PBool false))
  /\ (forall uid pas,
        fst (check_user_credential production uid pas exhausted) = Ret PNone)
  /\ (forall h,
        fst (call_pair_helper production h exhausted) = Ret (PList [PNone; PInt 0])).
Proof.
  apply (exhausted_pool_hides_data exhausted). reflexivity.
Defined.

(** ** Rows and counts on the production driver *)

Lemma mysql_select_traped_owner (owner : string) (t : tables) :
  mysql select_traped_owner [PStr owner] t
  = from (TRAPED t) t (fun rs => map four_tuple (filter (has_owner owner) rs)).
Proof. reflexivity. Qed.

Lemma mysql_count_traped_owner (owner : string) (t : tables) :
  mysql count_traped_owner [PStr owner] t
  = from (TRAPED t) t (fun rs => count_row (filter (has_owner owner) rs)).
Proof. reflexivity. Qed.

Lemma mysql_select_traped (t : tables) :
  mysql select_traped [] t = from (TRAPED t) t (map four_tuple).
Proof. reflexivity. Qed.

Lemma mysql_count_traped (t : tables) :
  mysql count_traped [] t = from (TRAPED t) t count_row.
Proof. reflexivity. Qed.

Lemma mysql_select_users (t : tables) :
  mysql select_users [] t = from (USERS t) t (map user_tuple).
Proof. reflexivity. Qed.

Lemma mysql_count_users (t : tables) :
  mysql count_users [] t = from (USERS t) t count_row.
Proof. reflexivity. Qed.

Lemma mysql_select_message (t : tables) :
  mysql select_message [] t = from (MESSAGE t) t (map four_tuple).
Proof. reflexivity. Qed.

Lemma mysql_count_message (t : tables) :
  mysql count_message [] t = from (MESSAGE t) t count_row.
Proof. reflexivity. Qed.

Ltac query_step :=
  match goal with
  | P : pool ?x <> [] |- context [execute_query ?E ?q ?p ?f ?c ?x] =>
      let w' := fresh "w" in
      let X := fresh "X" in
      let C := fresh "C" in
      let L := fresh "L" in
      let P' := fresh "P" in
      destruct (execute_query_production q p f c x P) as (w' & X & C & L & P');
      rewrite X; clear X
  end.

Lemma pair_helper_production (h : pair_helper) (w : world) :
  pool w <> [] ->
  fst (call_pair_helper production h w)
  = Ret match detail_rows h (committed w) with
        | Some rows => PList [PList (map PTuple rows); PInt (Z.of_nat (length rows))]
        | None => PList [PNone; PInt 0]
        end.
Proof.
  intros HP.
  destruct h; simpl;
    unfold get_traped_data_for_owner, get_traped_data, get_user_data,
      get_feedback_data, bind;
    query_step; query_step;
    unfold params_or_empty in *;
    rewrite ?mysql_select_traped_owner, ?mysql_count_traped_owner,
      ?mysql_select_traped, ?mysql_count_traped, ?mysql_select_users,
      ?mysql_count_users, ?mysql_select_message, ?mysql_count_message in *;
    match goal with
    | |- context [from ?T (committed w) _] => destruct T as [rs | ] eqn:HT
    end;
    simpl in *;
    repeat match goal with
           | H : committed ?x = committed w |- _ =>
               rewrite H in *; clear H
           end;
    rewrite ?HT; simpl; rewrite ?length_map; reflexivity.
Qed.

(** X10. With a connection idle in the pool, each helper that returns
    rows and a count returns the rows of its table (for one owner:
    the rows of that owner) in insertion order, as tuples, with a
    count equal to their number; when the table does not exist it
    returns [[None, 0]]. *)
Theorem pair_helpers_rows_and_count (h : pair_helper) (w : world) :
  pool w <> [] ->
  fst (call_pair_helper production h w)
  = Ret match detail_rows h (committed w) with
        | Some rows => PList [PList (map PTuple rows); PInt (Z.of_nat (length rows))]
        | None => PList [PNone; PInt 0]
        end.
Proof.
  intros HP. apply pair_helper_production. exact HP.
Qed.

Lemma pair_helpers_rows_and_count_witness :
  fst (call_pair_helper production UserData two_users)
  = Ret match detail_rows UserData (committed two_users) with
        | Some rows => PList [PList (map PTuple rows); PInt (Z.of_nat (length rows))]
        | None => PList [PNone; PInt 0]
        end.
Proof.
  apply (pair_helpers_rows_and_count UserData two_users). discriminate.
Defined.

(** ** insert_into_traped and save_feedback, then the reads *)

Lemma mysql_insert_traped (owner site uid pas : string) (t : tables) :
  mysql insert_traped [PStr owner; PStr site; PStr uid; PStr pas] t
  = match TRAPED t with
    | None => inl NoSuchTable
    | Some rs =>
        if negb (varchar255 owner && varchar255 site
                 && varchar255 uid && varchar255 pas)
        then inl DataTooLong
        else inr ([], mkTables (USERS t) (Some (rs ++ [(owner, site, uid, pas)]))
                               (MESSAGE t))
    end.
Proof. reflexivity. Qed.

Lemma mysql_insert_message (uid name email msg : string) (t : tables) :
  mysql insert_message [PStr uid; PStr name; PStr email; PStr msg] t
  = match MESSAGE t with
    | None => inl NoSuchTable
    | Some ms =>
        if negb (varchar255 uid && varchar255 name
                 && varchar255 email && text msg)
        then inl DataTooLong
        else inr ([], mkTables (USERS t) (TRAPED t)
                               (Some (ms ++ [(uid, name, email, msg)])))
    end.
Proof. reflexivity. Qed.

Lemma insert_into_traped_success (owner site uid pas : string) (w w' : world) :
  insert_into_traped production owner site uid pas w = (Ret PNone, w') ->
  log w' = user_trapped uid :: log w ->
  pool w <> [] /\ pool w' <> []
  /\ exists rs,
       TRAPED (committed w) = Some rs
       /\ TRAPED (committed w') = Some (rs ++ [(owner, site, uid, pas)]).
Proof.
  unfold insert_into_traped, bind, logging_info, logging, ret.
  intros H HL.
  destruct (pool w) as [ | c0 idle] eqn:HW.
  - exfalso.
    rewrite (execute_query_exhausted _ _ _ _ w HW) in H.
    injection H as H. subst w'.
    destruct w. simpl in HL. injection HL as HL.
    exact (cons_cons_neq _ _ _ HL).
  - destruct (execute_query_production insert_traped
                (Some [PStr owner; PStr site; PStr uid; PStr pas]) false true w)
      as (w2 & X & HC & HG & HP2).
    + rewrite HW. discriminate.
    + rewrite X in H. injection H as H. subst w'.
      unfold params_or_empty in *. rewrite mysql_insert_traped in *.
      destruct w2 as [p2 cm2 se2 un2 cs2 lg2]. simpl in *.
      injection HL as HL. subst lg2.
      split; [discriminate | ]. split; [exact HP2 | ].
      destruct (TRAPED (committed w)) as [rs | ];
        [ | exfalso; exact (cons_neq _ _ (eq_sym HG))].
      destruct (negb (varchar255 owner && varchar255 site
                      && varchar255 uid && varchar255 pas));
        [exfalso; exact (cons_neq _ _ (eq_sym HG)) | ].
      exists rs. subst cm2. split; reflexivity.
Qed.

Lemma filter_app_last {A} (f : A -> bool) (l : list A) (x : A) :
  f x = true -> filter f (l ++ [x]) = filter f l ++ [x].
Proof.
  intros HX. rewrite filter_app. simpl. rewrite HX. reflexivity.
Qed.

(** X11. After an [insert_into_traped] that logged no error,
    [get_traped_data_for_owner] for that owner returns the rows the
    owner had before followed by the record inserted, field for field,
    and a count one above their number. *)
Theorem traped_record_is_returned (owner site uid pas : string) (w w' : world) :
  insert_into_traped production owner site uid pas w = (Ret PNone, w') ->
  log w' = user_trapped uid :: log w ->
  exists before,
    fst (get_traped_data_for_owner production owner w)
    = Ret (PList [PList (map PTuple before); PInt (Z.of_nat (length before))])
    /\ fst (get_traped_data_for_owner production owner w')
       = Ret (PList [PList (map PTuple
                              (before ++ [[PStr owner; PStr site; PStr uid; PStr pas]]));
                     PInt (Z.of_nat (length before + 1))]).
Proof.
  intros H HL.
  destruct (insert_into_traped_success owner site uid pas w w' H HL)
    as (HP & HP' & rs & HT & HT').
  exists (map four_tuple (filter (has_owner owner) rs)). split.
  - pose proof (pair_helper_production (TrapedDataForOwner owner) w HP) as Q.
    simpl in Q. rewrite Q, HT. reflexivity.
  - pose proof (pair_helper_production (TrapedDataForOwner owner) w' HP') as Q.
    simpl in Q. rewrite Q, HT'. simpl.
    rewrite filter_app_last by (unfold has_owner; simpl; apply String.eqb_refl).
    rewrite map_app. simpl. rewrite length_app. reflexivity.
Qed.

Lemma traped_record_is_returned_witness :
  exists before,
    fst (get_traped_data_for_owner production "u1" fresh)
    = Ret (PList [PList (map PTuple before); PInt (Z.of_nat (length before))])
    /\ fst (get_traped_data_for_owner production "u1"
              (snd (insert_into_traped production "u1" "bank" "victim" "secret" fresh)))
       = Ret (PList [PList (map PTuple
                              (before ++ [[PStr "u1"; PStr "bank"; PStr "victim";
                                           PStr "secret"]]));
                     PInt (Z.of_nat (length before + 1))]).
Proof.
  apply (traped_record_is_returned "u1" "bank" "victim" "secret" fresh
           (snd (insert_into_traped production "u1" "bank" "victim" "secret" fresh)));
    reflexivity.
Defined.

Lemma save_feedback_success (uid name email msg : string) (w w' : world) :
  save_feedback production uid name email msg w = (Ret PNone, w') ->
  log w' = feedback_saved uid :: log w ->
  pool w <> [] /\ pool w' <> []
  /\ exists ms,
       MESSAGE (committed w) = Some ms
       /\ MESSAGE (committed w') = Some (ms ++ [(uid, name, email, msg)]).
Proof.
  unfold save_feedback, bind, logging_info, logging, ret.
  intros H HL.
  destruct (pool w) as [ | c0 idle] eqn:HW.
  - exfalso.
    rewrite (execute_query_exhausted _ _ _ _ w HW) in H.
    injection H as H. subst w'.
    destruct w. simpl in HL. injection HL as HL.
    exact (cons_cons_neq _ _ _ HL).
  - destruct (execute_query_production insert_message
                (Some [PStr uid; PStr name; PStr email; PStr msg]) false true w)
      as (w2 & X & HC & HG & HP2).
    + rewrite HW. discriminate.
    + rewrite X in H. injection H as H. subst w'.
      unfold params_or_empty in *. rewrite mysql_insert_message in *.
      destruct w2 as [p2 cm2 se2 un2 cs2 lg2]. simpl in *.
      injection HL as HL. subst lg2.
      split; [discriminate | ]. split; [exact HP2 | ].
      destruct (MESSAGE (committed w)) as [ms | ];
        [ | exfalso; exact (cons_neq _ _ (eq_sym HG))].
      destruct (negb (varchar255 uid && varchar255 name
                      && varchar255 email && text msg));
        [exfalso; exact (cons_neq _ _ (eq_sym HG)) | ].
      exists ms. subst cm2. split; reflexivity.
Qed.

(** X12. After a [save_feedback] that logged no error,
    [get_feedback_data] returns the messages it returned before
    followed by the one saved, its four fields unchanged, and a count
    that is one higher. *)
Theorem saved_feedback_is_returned (uid name email msg : string) (w w' : world) :
  save_feedback production uid name email msg w = (Ret PNone, w') ->
  log w' = feedback_saved uid :: log w ->
  exists before,
    fst (get_feedback_data production w)
    = Ret (PList [PList (map PTuple before); PInt (Z.of_nat (length before))])
    /\ fst (get_feedback_data production w')
       = Ret (PList [PList (map PTuple
                              (before ++ [[PStr uid; PStr name; PStr email; PStr msg]]));
                     PInt (Z.of_nat (length before + 1))]).
Proof.
  intros H HL.
  destruct (save_feedback_success uid name email msg w w' H HL)
    as (HP & HP' & ms & HT & HT').
  exists (map four_tuple ms). split.
  - pose proof (pair_helper_production FeedbackData w HP) as Q.
    simpl in Q. rewrite Q, HT. reflexivity.
  - pose proof (pair_helper_production FeedbackData w' HP') as Q.
    simpl in Q. rewrite Q, HT'. simpl.
    rewrite map_app. simpl. rewrite length_app. reflexivity.
Qed.

Lemma saved_feedback_is_returned_witness :
  exists before,
    fst (get_feedback_data production fresh)
    = Ret (PList [PList (map PTuple before); PInt (Z.of_nat (length before))])
    /\ fst (get_feedback_data production
              (snd (save_feedback production "u1" "Ann" "a@b.com" "hello" fresh)))
       = Ret (PList [PList (map PTuple
                              (before ++ [[PStr "u1"; PStr "Ann"; PStr "a@b.com";
                                           PStr "hello"]]));
                     PInt (Z.of_nat (length before + 1))]).
Proof.
  apply (saved_feedback_is_returned "u1" "Ann" "a@b.com" "hello" fresh
           (snd (save_feedback production "u1" "Ann" "a@b.com" "hello" fresh)));
    reflexivity.
Defined.

(** ** insert_into_user for an identifier already taken *)

Lemma find_some_existsb {A} (f : A -> bool) (l : list A) (x : A) :
  find f l = Some x -> existsb f l = true.
Proof.
  induction l as [ | y l IH]; simpl; [discriminate | ].
  destruct (f y); [reflexivity | exact IH].
Qed.

(** X13. [insert_into_user] for an identifier that a row of [USERS]
    already has changes nothing in the database: the row and its
    password stay, the server's error is logged, and the record of an
    added user is written all the same. *)
Theorem insert_into_user_taken (uid email pas : string) (w : world) (r : user_row) :
  pool w <> [] ->
  user_with uid (committed w) = Some r ->
  exists w' e,
    insert_into_user production uid email pas w = (Ret PNone, w')
    /\ committed w' = committed w
    /\ log w' = user_added uid :: error_record e :: log w
    /\ exn_cls e = MySQLError.
Proof.
  intros HP HU. unfold insert_into_user, bind, logging_info, logging, ret.
  destruct (execute_query_production insert_user
              (Some [PStr uid; PStr email; PStr pas]) false true w HP)
    as (w2 & X & HC & HG & HP2).
  rewrite X. clear X. unfold params_or_empty in *.
  rewrite mysql_insert_user in *.
  unfold user_with in HU.
  destruct (USERS (committed w)) as [us | ]; [ | discriminate HU].
  simpl in HU. apply find_some_existsb in HU. rewrite HU in *.
  destruct w2 as [p2 cm2 se2 un2 cs2 lg2]. simpl in *.
  destruct (negb (varchar255 uid && varchar255 email && varchar255 pas));
    subst; eexists; eexists; repeat split; reflexivity.
Qed.

Lemma insert_into_user_taken_witness :
  exists w' e,
    insert_into_user production "u1" "x@y.com" "other" two_users = (Ret PNone, w')
    /\ committed w' = committed two_users
    /\ log w' = user_added "u1" :: error_record e :: log two_users
    /\ exn_cls e = MySQLError.
Proof.
  apply (insert_into_user_taken "u1" "x@y.com" "other" two_users
           ("u1", "a@b.com", "pw1")).
  - discriminate.
  - reflexivity.
Defined.

(** ** Answers and the rows behind them, in every environment *)

(** A value other than [None] is what was fetched from the rows the
    server gave for the statement. *)
Lemma execute_query_value (E : env) (q : string) (ps : option (list pyval))
  (fa c : bool) (w : world) (v : pyval) :
  fst (execute_query E q ps fa c w) = Ret v ->
  v <> PNone ->
  exists rows t,
    server E q (params_or_empty ps) (committed w) = inr (rows, t)
    /\ v = fetched fa rows.
Proof.
  destruct w as [p cm se un cs lg]. unfold_driver.
  destruct c, fa; drive; simpl; tidy; intros H HN; try discriminate H;
    injection H as H; subst v; try contradiction;
    eexists; eexists; split; reflexivity.
Qed.

(** X14. In every environment, [check_user_credential] returns [True]
    only when the server answered the password query with a row whose
    first column equals the password supplied: no failure of the
    driver or of the server makes a credential pass. *)
Theorem credential_passes_only_on_stored_password (E : env) (uid pas : string)
  (w : world) :
  fst (check_user_credential E uid pas w) = Ret (PBool true) ->
  exists stored others rows t,
    server E select_password [PStr uid] (committed w)
    = inr ((stored :: others) :: rows, t)
    /\ py_eq stored (PStr pas) = true.
Proof.
  unfold check_user_credential, bind. intros H.
  pose proof (execute_query_value E select_password (Some [PStr uid])
                false false w) as HV.
  destruct (execute_query E select_password (Some [PStr uid]) false false w)
    as [[v | e] w1]; simpl in *; [ | discriminate H].
  destruct v as [ | b | z | s | items | items]; simpl in H;
    try discriminate H.
  - destruct b; simpl in H; [ | discriminate H].
    destruct (HV (PBool true) eq_refl) as (rows & t & _ & HF);
      [discriminate | ].
    destruct rows; discriminate HF.
  - destruct (HV (PInt z) eq_refl) as (rows & t & _ & HF); [discriminate | ].
    destruct rows; discriminate HF.
  - destruct (HV (PStr s) eq_refl) as (rows & t & _ & HF); [discriminate | ].
    destruct rows; discriminate HF.
  - destruct (HV (PTuple items) eq_refl) as (rows & t & HS & HF);
      [discriminate | ].
    destruct rows as [ | r rows]; [discriminate HF | ].
    simpl in HF. injection HF as HF. subst r.
    destruct items as [ | stored others]; simpl in H; [discriminate H | ].
    injection H as H.
    exists stored, others, rows, t. split; [exact HS | exact H].
  - destruct (HV (PList items) eq_refl) as (rows & t & _ & HF); [discriminate | ].
    destruct rows; discriminate HF.
Qed.

Lemma credential_passes_only_on_stored_password_witness :
  exists stored others rows t,
    server production select_password [PStr "u1"] (committed two_users)
    = inr ((stored :: others) :: rows, t)
    /\ py_eq stored (PStr "pw1") = true.
Proof.
  apply (credential_passes_only_on_stored_password production "u1" "pw1" two_users).
  reflexivity.
Defined.

(** X15. In every environment, [check_if_user_exists] returns [True]
    only when the server answered its query with at least one row: a
    failed query never reports a user. *)
Theorem user_reported_only_on_row (E : env) (uid : string) (w : world) :
  fst (check_if_user_exists E uid w) = Ret (PBool true) ->
  exists r rows t,
    server E select_user_exists [PStr uid] (committed w) = inr (r :: rows, t).
Proof.
  unfold check_if_user_exists, bind, logging_debug, logging, ret. intros H.
  destruct w as [p cm se un cs lg]. simpl in H.
  match type of H with
  | context [execute_query ?E ?q ?ps ?f ?c ?x] =>
      pose proof (execute_query_value E q ps f c x) as HV;
      destruct (execute_query E q ps f c x) as [[v | e] w1]
  end; simpl in *; [ | discriminate H].
  injection H as H.
  destruct (HV v eq_refl) as (rows & t & HS & HF).
  - intros HN. subst v. discriminate H.
  - subst v. destruct rows as [ | r rows]; [discriminate H | ].
    exists r, rows, t. exact HS.
Qed.

Lemma user_reported_only_on_row_witness :
  exists r rows t,
    server production select_user_exists [PStr "u1"] (committed two_users)
    = inr (r :: rows, t).
Proof.
  apply (user_reported_only_on_row production "u1" two_users). reflexivity.
Defined.

(** ** A commit that fails *)

Lemma execute_query_commit_lost (E : env) (q : string)
  (ps : option (list pyval)) (fa c : bool) (w : world) :
  (forall h, fault E h OpCommit <> None) ->
  committed (snd (execute_query E q ps fa c w)) = committed w.
Proof.
  intros HC. destruct w as [p cm se un cs lg]. unfold_driver.
  destruct c, fa; drive; try reflexivity;
    exfalso;
    match goal with
    | H : fault E ?h OpCommit = None |- _ => exact (HC h H)
    end.
Qed.

(** X16. Where [conn.commit()] fails (and releasing does not), nothing
    an insert helper sends is stored: the database is unchanged, and
    the helper still returns [None] with its record of success as the
    last line of the log. *)
Theorem inserts_lost_without_commit (E : env) (w : world) :
  release_safe E ->
  (forall h, fault E h OpCommit <> None) ->
  (forall uid email pas,
      exists w', insert_into_user E uid email pas w = (Ret PNone, w')
                 /\ committed w' = committed w
                 /\ hd_error (log w') = Some (user_added uid))
  /\ (forall owner site uid pas,
      exists w', insert_into_traped E owner site uid pas w = (Ret PNone, w')
                 /\ committed w' = committed w
                 /\ hd_error (log w') = Some (user_trapped uid))
  /\ (forall uid name email msg,
      exists w', save_feedback E uid name email msg w = (Ret PNone, w')
                 /\ committed w' = committed w
                 /\ hd_error (log w') = Some (feedback_saved uid)).
Proof.
  intros HR HC. repeat split; intros;
    unfold insert_into_user, insert_into_traped, save_feedback, bind;
    match goal with
    | |- context [execute_query ?E ?q ?p ?f ?c ?x] =>
        pose proof (execute_query_commit_lost E q p f c x HC) as HK;
        destruct (execute_query_release_safe E q p f c x HR)
          as (v & w1 & X & _)
    end;
    rewrite X in *; destruct w1; simpl in *;
    eexists; repeat split; simpl; auto.
Qed.

Lemma inserts_lost_without_commit_witness :
  (forall uid email pas,
      exists w', insert_into_user commit_fails uid email pas fresh = (Ret PNone, w')
                 /\ committed w' = committed fresh
                 /\ hd_error (log w') = Some (user_added uid))
  /\ (forall owner site uid pas,
      exists w', insert_into_traped commit_fails owner site uid pas fresh
                 = (Ret PNone, w')
                 /\ committed w' = committed fresh
                 /\ hd_error (log w') = Some (user_trapped uid))
  /\ (forall uid name email msg,
      exists w', save_feedback commit_fails uid name email msg fresh
                 = (Ret PNone, w')
                 /\ committed w' = committed fresh
                 /\ hd_error (log w') = Some (feedback_saved uid)).
Proof.
  apply (inserts_lost_without_commit commit_fails fresh).
  - intro h. split; reflexivity.
  - intros h H. discriminate H.
Defined.
